(** * The chat proxy route handler [POST] of [src/app/api/route.js]

    A shallow embedding of the single request handler of the repository:
    configuration check, request parsing, presence validation, the call to
    the generative-text service and the mapping of caught exceptions to
    HTTP status codes.

    What the handler cannot decide by itself is taken from outside:
    - the host engine's string builtins and error wording ([JsEngine]);
    - the process environment, the outcome of [request.json()] and the
      behaviour of the upstream SDK ([world]). *)

From Stdlib Require Import Bool List Ascii String ZArith.
From Stdlib Require Import Floats.SpecFloat.
Import ListNotations.

Set Warnings "-register-all".

Local Open Scope string_scope.
Local Open Scope Z_scope.

(** ** JavaScript strings

    A JavaScript string is represented by the bytes of its UTF-8 encoding.
    Every search string the handler uses is plain ASCII, and an ASCII byte
    never occurs inside a multi-byte sequence, so substring search over the
    bytes agrees with [String.prototype.includes] over code units; and a
    string is empty exactly when its encoding is. *)

(** [startsWith s t]: [t] is a prefix of [s]. *)
Fixpoint startsWith (s t : string) {struct t} : bool :=
  match t with
  | EmptyString => true
  | String b t' =>
      match s with
      | EmptyString => false
      | String a s' => Ascii.eqb a b && startsWith s' t'
      end
  end.

(** [includes s t] is [s.includes(t)]. *)
Fixpoint includes (s t : string) : bool :=
  startsWith s t ||
  match s with
  | EmptyString => false
  | String _ s' => includes s' t
  end.

(** Lower-casing restricted to the letters A-Z; it agrees with
    [String.prototype.toLowerCase] on strings made of ASCII characters. *)
Definition lower_ascii (c : ascii) : ascii :=
  let n := nat_of_ascii c in
  if (Nat.leb 65 n && Nat.leb n 90)%bool then ascii_of_nat (n + 32) else c.

Fixpoint toLowerCase_ascii (s : string) : string :=
  match s with
  | EmptyString => EmptyString
  | String c s' => String (lower_ascii c) (toLowerCase_ascii s')
  end.

(** The double quote, for messages that quote a piece of text. *)
Definition dquote : string := String (ascii_of_nat 34) EmptyString.

(** ** JavaScript values

    The values [JSON.parse] can produce, and [undefined] for a property
    that is not there.  Numbers are IEEE 754 doubles. *)

Inductive js_value : Type :=
| JUndefined
| JNull
| JBool (b : bool)
| JNum (n : spec_float)
| JStr (s : string)
| JArr (items : list js_value)
| JObj (fields : list (string * js_value)).

(** [ToBoolean]: [undefined], [null], [false], [+0], [-0], [NaN] and the
    empty string are falsy, everything else is truthy. *)
Definition truthy (v : js_value) : bool :=
  match v with
  | JUndefined | JNull => false
  | JBool b => b
  | JNum (S754_zero _) | JNum S754_nan => false
  | JNum _ => true
  | JStr s => negb (String.eqb s EmptyString)
  | JArr _ | JObj _ => true
  end.

(** Own property lookup in an object built by [JSON.parse]. *)
Fixpoint own_property (fields : list (string * js_value)) (name : string)
  : option js_value :=
  match fields with
  | [] => None
  | (k, v) :: rest => if String.eqb k name then Some v else own_property rest name
  end.

Definition has_own_property (fields : list (string * js_value)) (name : string) : bool :=
  match own_property fields name with Some _ => true | None => false end.

(** ** Exceptions

    Everything raised inside the handler's [try] block is an [Error]
    instance: [request.json()] rejects with a [SyntaxError] or a [TypeError],
    a failed property read or string conversion raises a [TypeError], and the
    upstream SDK fails with subclasses of [Error].  [message] is the string
    the instance carries, the empty string when it was built without one;
    the [catch] block tells an exception with an empty message from one
    with a message by the truthiness of [error.message]. *)

Inductive error_class : Type := SyntaxError | TypeError | OtherError.

Record js_error : Type := mkError {
  error_class_of : error_class;
  message : string
}.

Definition instanceof_SyntaxError (e : js_error) : bool :=
  match error_class_of e with SyntaxError => true | _ => false end.

(** ** The host engine *)

Class JsEngine : Type := {
  (** [String.prototype.toLowerCase] *)
  toLowerCase : string -> string;
  (** message of the [TypeError] raised by reading property [p] of [null]
      or [undefined]; the first argument is the name of the value read *)
  nullish_read_message : string -> string -> string;
  (** message of the [TypeError] raised when an object has no primitive value *)
  to_primitive_message : string
}.

(** The wording of V8 (Node.js), with lower-casing limited to ASCII text. *)
Definition v8 : JsEngine := {|
  toLowerCase := toLowerCase_ascii;
  nullish_read_message := fun v p =>
    "Cannot read properties of " ++ v ++ " (reading '" ++ p ++ "')";
  to_primitive_message := "Cannot convert object to primitive value"
|}.

(** ** Observable effects

    Console output and the call to the upstream service, in the order in
    which the handler performs them. *)

Inductive console_level : Type := LevelLog | LevelWarn | LevelError.

Inductive log_entry : Type :=
| KeyNotFound
| NoPromptProvided
| PromptReceived (userPrompt : js_value)
| ContactingGemini
| ResponseText (text : string)
| CaughtError (error : js_error)
| ErrorDetails (error : js_error).

Inductive event : Type :=
| Console (level : console_level) (entry : log_entry)
| UpstreamCall (apiKey model : string) (prompt : js_value).

Definition is_upstream_call (ev : event) : bool :=
  match ev with UpstreamCall _ _ _ => true | Console _ _ => false end.

(** The upstream service was contacted somewhere in the trace. *)
Definition upstream_invoked (trace : list event) : bool :=
  existsb is_upstream_call trace.

(** ** Computations that log and may throw *)

Definition Try (A : Type) : Type := list event -> (js_error + A) * list event.

Definition ret {A} (a : A) : Try A := fun log => (inr a, log).

Definition throw {A} (e : js_error) : Try A := fun log => (inl e, log).

Definition bind {A B} (m : Try A) (k : A -> Try B) : Try B :=
  fun log =>
    match m log with
    | (inr a, log') => k a log'
    | (inl e, log') => (inl e, log')
    end.

Definition emit (ev : event) : Try unit := fun log => (inr tt, (log ++ [ev])%list).

Definition console (level : console_level) (entry : log_entry) : Try unit :=
  emit (Console level entry).

(** [await p] for a promise that has settled as [p]. *)
Definition await {A} (p : js_error + A) : Try A :=
  match p with inl e => throw e | inr a => ret a end.

Notation "x <- m ;; k" := (bind m (fun x => k))
  (at level 61, m at next level, right associativity).
Notation "m ;; k" := (bind m (fun _ => k))
  (at level 61, right associativity).

(** ** Responses *)

Record response : Type := mkResponse {
  body : list (string * js_value);
  status : Z
}.

(** [NextResponse.json(body, { status })]; the status is 200 when no
    second argument is given. *)
Definition NextResponse_json (b : list (string * js_value)) (init : option Z) : response :=
  {| body := b; status := match init with Some s => s | None => 200 end |}.

(** ** The world around one invocation *)

Record world : Type := mkWorld {
  (** [process.env.GEMINI_API_KEY] *)
  GEMINI_API_KEY : option string;
  (** how [request.json()] settles *)
  request_json : js_error + js_value;
  (** the SDK: API key, model name and prompt to generated text, or failure *)
  generateContent : string -> string -> js_value -> js_error + string
}.

(** ** The handler *)

Section Handler.

Context {engine : JsEngine}.

(** [reqBody.prompt]: reading a property of [null] or [undefined] raises a
    [TypeError]; an object yields its own property or [undefined]; the
    other values have no such property. *)
Definition read_prompt (reqBody : js_value) : Try js_value :=
  match reqBody with
  | JNull => throw (mkError TypeError (nullish_read_message "null" "prompt"))
  | JUndefined => throw (mkError TypeError (nullish_read_message "undefined" "prompt"))
  | JObj fields =>
      ret (match own_property fields "prompt" with
           | Some v => v
           | None => JUndefined
           end)
  | JBool _ | JNum _ | JStr _ | JArr _ => ret JUndefined
  end.

(** Whether [ToString] fails on a value.  An object built by [JSON.parse]
    has no callable own property, so an own [toString] hides
    [Object.prototype.toString] and leaves no way to a primitive value; an
    array joins the conversions of its elements, skipping [null] and
    [undefined]. *)
Fixpoint string_conversion_fails (v : js_value) : bool :=
  match v with
  | JUndefined | JNull | JBool _ | JNum _ | JStr _ => false
  | JArr items => existsb string_conversion_fails items
  | JObj fields => has_own_property fields "toString"
  end.

(** The template literal that interpolates the prompt into the log line. *)
Definition template_literal (v : js_value) : Try unit :=
  if string_conversion_fails v
  then throw (mkError TypeError to_primitive_message)
  else ret tt.

(** [model.generateContent(userPrompt)], [await result.response] and
    [response.text()], on a client built with [apiKey] for [model]. *)
Definition generate_text (w : world) (apiKey model : string) (prompt : js_value)
  : Try string :=
  emit (UpstreamCall apiKey model prompt) ;;
  await (generateContent w apiKey model prompt).

(** The response to a request without a prompt. *)
Definition prompt_missing : response :=
  NextResponse_json [("error", JStr "No prompt provided in request body.")] (Some 400).

Definition try_block (w : world) (apiKey : string) : Try response :=
  reqBody <- await (request_json w) ;;
  userPrompt <- read_prompt reqBody ;;
  if negb (truthy userPrompt) then
    console LevelWarn NoPromptProvided ;;
    ret prompt_missing
  else
    template_literal userPrompt ;;
    console LevelLog (PromptReceived userPrompt) ;;
    let model := "gemini-pro" in
    console LevelLog ContactingGemini ;;
    text <- generate_text w apiKey model userPrompt ;;
    console LevelLog (ResponseText text) ;;
    ret (NextResponse_json [("reply", JStr text)] None).

(** The test shared by the first three branches of the [catch] block,
    [error.message && error.message.toLowerCase().includes(needle)]: the
    exception carries a message whose lower-cased text includes [needle]. *)
Definition message_mentions (error : js_error) (needle : string) : bool :=
  truthy (JStr (message error)) && includes (toLowerCase (message error)) needle.

(** The classification of a caught exception: the pair of [errorMessage]
    and [errorStatus] at the end of the [catch] block. *)
Definition classify (error : js_error) : string * Z :=
  let errorMessage := "Failed to get response from AI." in
  let errorStatus := 500 in
  let errorMessage :=
    if truthy (JStr (message error)) then message error else errorMessage in
  if message_mentions error "api key not valid"
  then ("Gemini API Key is not valid. Please check your .env.local file and ensure it's correct.", 401)
  else if message_mentions error "quota"
  then ("API quota exceeded. Please check your Google Cloud console.", 429)
  else if message_mentions error "model not found"
  then ("The specified AI model was not found. Check the model name.", 404)
  else if instanceof_SyntaxError error && includes (message error) "JSON"
  then ("Invalid JSON in request body.", 400)
  else (errorMessage, errorStatus).

(** The [details] member of the responses of the [catch] block. *)
Definition details_text : string := "See server logs for more information.".

Definition catch_block (error : js_error) (log : list event)
  : response * list event :=
  let '(errorMessage, errorStatus) := classify error in
  (NextResponse_json
     [("error", JStr errorMessage);
      ("details", JStr details_text)]
     (Some errorStatus),
   (log ++ [Console LevelError (CaughtError error);
            Console LevelError (ErrorDetails error)])%list).

(** The response to a request that finds no API key in the environment. *)
Definition key_missing : response * list event :=
  (NextResponse_json
     [("error", JStr "AI service not configured. API Key missing.")] (Some 500),
   [Console LevelError KeyNotFound]).

Definition POST (w : world) : response * list event :=
  match GEMINI_API_KEY w with
  | None => key_missing
  | Some apiKey =>
      if negb (truthy (JStr apiKey)) then key_missing
      else
        match try_block w apiKey [] with
        | (inr r, log) => (r, log)
        | (inl error, log) => catch_block error log
        end
  end.

(** A usable API key is present in the environment. *)
Definition key_configured (w : world) : bool :=
  match GEMINI_API_KEY w with
  | Some apiKey => truthy (JStr apiKey)
  | None => false
  end.

(** [error] is the exception the [catch] block receives: the key is
    configured and the [try] block ends by throwing [error]. *)
Definition caught (w : world) (error : js_error) : Prop :=
  exists apiKey log,
    GEMINI_API_KEY w = Some apiKey /\ truthy (JStr apiKey) = true /\
    try_block w apiKey [] = (inl error, log).

(** The exception's own message, or the default text of the [catch] block
    when the exception carries none. *)
Definition raw_or_fallback (error : js_error) : string :=
  if String.eqb (message error) EmptyString then "Failed to get response from AI."
  else message error.

(** The [error] and [details] members of a response body. *)
Definition error_of (r : response) : option js_value := own_property (body r) "error".
Definition details_of (r : response) : option js_value := own_property (body r) "details".

End Handler.

(** ** Sample worlds *)

Definition healthy_sdk (text : string) : string -> string -> js_value -> js_error + string :=
  fun _ _ _ => inr text.

Definition failing_sdk (e : js_error) : string -> string -> js_value -> js_error + string :=
  fun _ _ _ => inl e.

(** The request [{"prompt": "hello"}]. *)
Definition hello_body : js_value := JObj [("prompt", JStr "hello")].

Definition hello_world (sdk : string -> string -> js_value -> js_error + string) : world :=
  {| GEMINI_API_KEY := Some "secret-key";
     request_json := inr hello_body;
     generateContent := sdk |}.

(** A request whose body [v] parsed, served with a key and a healthy SDK. *)
Definition body_world (v : js_value) : world :=
  {| GEMINI_API_KEY := Some "secret-key";
     request_json := inr v;
     generateContent := healthy_sdk "hi there" |}.

(** A request whose body did not parse: [request.json()] rejects with [e]. *)
Definition unparsed_world (e : js_error) : world :=
  {| GEMINI_API_KEY := Some "secret-key";
     request_json := inl e;
     generateContent := healthy_sdk "hi there" |}.

(** No key in the environment. *)
Definition keyless_world (body : js_error + js_value) : world :=
  {| GEMINI_API_KEY := None;
     request_json := body;
     generateContent := healthy_sdk "hi there" |}.

(** What V8 reports for the request body [quota], which is not JSON. *)
Definition quota_parse_error : js_error :=
  mkError SyntaxError
    ("Unexpected token 'q', " ++ dquote ++ "quota" ++ dquote ++ " is not valid JSON").

(** What V8 reports for an empty request body. *)
Definition empty_parse_error : js_error :=
  mkError SyntaxError "Unexpected end of JSON input".

(** Failures of the upstream SDK. *)
Definition invalid_key_error : js_error :=
  mkError OtherError
    "[GoogleGenerativeAI Error]: [400 Bad Request] API key not valid. Please pass a valid API key.".

Definition quota_error : js_error :=
  mkError OtherError
    "[GoogleGenerativeAI Error]: [429 Too Many Requests] Quota exceeded; model not found in the free tier.".

Definition model_error : js_error :=
  mkError OtherError
    "[GoogleGenerativeAI Error]: [404 Not Found] Model Not Found: models/gemini-pro.".

Definition network_error : js_error := mkError TypeError "fetch failed".

(** A parse failure worded without the capitals of "JSON". *)
Definition lowercase_parse_error : js_error :=
  mkError SyntaxError "Unexpected end of json input".

(** ** The paths through the handler

    One constructor for each way [POST] can end, with what the world has to
    be like for the handler to take it, the response and the trace. *)

Section Paths.

Context {engine : JsEngine}.

(** The trace up to and including the call of the upstream service. *)
Definition trace_to_upstream (apiKey : string) (prompt : js_value) : list event :=
  [Console LevelLog (PromptReceived prompt);
   Console LevelLog ContactingGemini;
   UpstreamCall apiKey "gemini-pro" prompt].

Inductive handled (w : world) : response * list event -> Prop :=
| handled_no_key :
    key_configured w = false ->
    handled w key_missing
| handled_rejected (apiKey : string) (error : js_error) :
    GEMINI_API_KEY w = Some apiKey -> truthy (JStr apiKey) = true ->
    request_json w = inl error ->
    handled w (catch_block error [])
| handled_unreadable (apiKey : string) (reqBody : js_value) (error : js_error) :
    GEMINI_API_KEY w = Some apiKey -> truthy (JStr apiKey) = true ->
    request_json w = inr reqBody ->
    read_prompt reqBody [] = (inl error, []) ->
    handled w (catch_block error [])
| handled_no_prompt (apiKey : string) (reqBody userPrompt : js_value) :
    GEMINI_API_KEY w = Some apiKey -> truthy (JStr apiKey) = true ->
    request_json w = inr reqBody ->
    read_prompt reqBody [] = (inr userPrompt, []) ->
    truthy userPrompt = false ->
    handled w (prompt_missing, [Console LevelWarn NoPromptProvided])
| handled_unprintable (apiKey : string) (reqBody userPrompt : js_value) :
    GEMINI_API_KEY w = Some apiKey -> truthy (JStr apiKey) = true ->
    request_json w = inr reqBody ->
    read_prompt reqBody [] = (inr userPrompt, []) ->
    truthy userPrompt = true ->
    string_conversion_fails userPrompt = true ->
    handled w (catch_block (mkError TypeError to_primitive_message) [])
| handled_upstream_failed (apiKey : string) (reqBody userPrompt : js_value)
    (error : js_error) :
    GEMINI_API_KEY w = Some apiKey -> truthy (JStr apiKey) = true ->
    request_json w = inr reqBody ->
    read_prompt reqBody [] = (inr userPrompt, []) ->
    truthy userPrompt = true ->
    string_conversion_fails userPrompt = false ->
    generateContent w apiKey "gemini-pro" userPrompt = inl error ->
    handled w (catch_block error (trace_to_upstream apiKey userPrompt))
| handled_replied (apiKey : string) (reqBody userPrompt : js_value) (text : string) :
    GEMINI_API_KEY w = Some apiKey -> truthy (JStr apiKey) = true ->
    request_json w = inr reqBody ->
    read_prompt reqBody [] = (inr userPrompt, []) ->
    truthy userPrompt = true ->
    string_conversion_fails userPrompt = false ->
    generateContent w apiKey "gemini-pro" userPrompt = inr text ->
    handled w
      (NextResponse_json [("reply", JStr text)] None,
       (trace_to_upstream apiKey userPrompt ++ [Console LevelLog (ResponseText text)])%list).

End Paths.

(** The calls of the upstream service in a trace. *)
Definition upstream_calls (trace : list event) : list event :=
  filter is_upstream_call trace.

(** What the handler wrote to the console. *)
Definition console_output (trace : list event) : list event :=
  filter (fun ev => negb (is_upstream_call ev)) trace.

(** A console entry above the level of [console.log]. *)
Definition is_warning (ev : event) : bool :=
  match ev with
  | Console LevelWarn _ | Console LevelError _ => true
  | Console LevelLog _ | UpstreamCall _ _ _ => false
  end.

(** The error texts the handler words itself. *)
Definition fixed_error_texts : list string :=
  ["AI service not configured. API Key missing.";
   "No prompt provided in request body.";
   "Gemini API Key is not valid. Please check your .env.local file and ensure it's correct.";
   "API quota exceeded. Please check your Google Cloud console.";
   "The specified AI model was not found. Check the model name.";
   "Invalid JSON in request body."].

(** The same world with another API key in the environment. *)
Definition with_key (w : world) (apiKey : string) : world :=
  {| GEMINI_API_KEY := Some apiKey;
     request_json := request_json w;
     generateContent := generateContent w |}.

(** A prompt that is a list of parts rather than a string. *)
Definition parts_prompt : js_value := JArr [JStr "hello"; JNull; JBool true].

(** A prompt that shadows [toString] with a number. *)
Definition unprintable_prompt : js_value :=
  JObj [("toString", JNum (S754_zero false))].

(** * Properties *)

(** ** Substring search *)

Lemma startsWith_iff (s t : string) :
  startsWith s t = true <-> exists b, s = t ++ b.
Proof.
  revert s; induction t as [|c t IH]; intros s; simpl.
  - split; [intros _; now exists s | reflexivity].
  - destruct s as [|a s]; simpl.
    + split; [discriminate | intros [b Hb]; discriminate].
    + rewrite andb_true_iff, Ascii.eqb_eq, IH. split.
      * intros [-> [b ->]]. now exists b.
      * intros [b Hb]. injection Hb as -> ->. split; [reflexivity | now exists b].
Qed.

Lemma includes_iff (s t : string) :
  includes s t = true <-> exists a b, s = a ++ t ++ b.
Proof.
  induction s as [|c s IH].
  - cbn [includes]. rewrite orb_false_r, startsWith_iff. split.
    + intros [b Hb]. now exists EmptyString, b.
    + intros (a & b & H). destruct a as [|x a]; [now exists b | discriminate].
  - cbn [includes]. rewrite orb_true_iff, startsWith_iff, IH. split.
    + intros [[b Hb] | (a & b & ->)].
      * now exists EmptyString, b.
      * now exists (String c a), b.
    + intros (a & b & H). destruct a as [|x a].
      * left. now exists b.
      * right. injection H as -> ->. now exists a, b.
Qed.

Lemma toLowerCase_ascii_app (a b : string) :
  toLowerCase_ascii (a ++ b) = toLowerCase_ascii a ++ toLowerCase_ascii b.
Proof. induction a as [|c a IH]; simpl; [reflexivity | now rewrite IH]. Qed.

(** Under ASCII lower-casing, an occurrence of [needle] in any mix of upper
    and lower case is found by the test of the [catch] block. *)
Lemma includes_any_case (a u b needle : string) :
  toLowerCase_ascii u = needle ->
  includes (toLowerCase_ascii (a ++ u ++ b)) needle = true.
Proof.
  intros <-. apply includes_iff.
  exists (toLowerCase_ascii a), (toLowerCase_ascii b).
  now rewrite !toLowerCase_ascii_app.
Qed.

(** ** The [catch] block *)

Section CatchBlock.

Context {engine : JsEngine}.

Lemma catch_block_response (error : js_error) (log : list event) :
  fst (catch_block error log) =
  NextResponse_json
    [("error", JStr (fst (classify error))); ("details", JStr details_text)]
    (Some (snd (classify error))).
Proof. unfold catch_block. now destruct (classify error). Qed.

Lemma catch_block_log (error : js_error) (log : list event) :
  snd (catch_block error log) =
  (log ++ [Console LevelError (CaughtError error);
           Console LevelError (ErrorDetails error)])%list.
Proof. unfold catch_block. now destruct (classify error). Qed.

(** The handler hands a caught exception to the [catch] block. *)
Lemma POST_caught (w : world) (error : js_error) :
  caught w error ->
  fst (POST w) =
  NextResponse_json
    [("error", JStr (fst (classify error))); ("details", JStr details_text)]
    (Some (snd (classify error))).
Proof.
  intros (apiKey & log & Hkey & Htruthy & Htry).
  unfold POST. rewrite Hkey, Htruthy, Htry. cbn [negb].
  apply catch_block_response.
Qed.

Lemma classify_api_key (error : js_error) :
  message_mentions error "api key not valid" = true ->
  classify error =
  ("Gemini API Key is not valid. Please check your .env.local file and ensure it's correct.", 401).
Proof. intros H. unfold classify. now rewrite H. Qed.

Lemma classify_quota (error : js_error) :
  message_mentions error "api key not valid" = false ->
  message_mentions error "quota" = true ->
  classify error =
  ("API quota exceeded. Please check your Google Cloud console.", 429).
Proof. intros H1 H2. unfold classify. now rewrite H1, H2. Qed.

Lemma classify_model (error : js_error) :
  message_mentions error "api key not valid" = false ->
  message_mentions error "quota" = false ->
  message_mentions error "model not found" = true ->
  classify error =
  ("The specified AI model was not found. Check the model name.", 404).
Proof. intros H1 H2 H3. unfold classify. now rewrite H1, H2, H3. Qed.

Lemma classify_json (error : js_error) :
  message_mentions error "api key not valid" = false ->
  message_mentions error "quota" = false ->
  message_mentions error "model not found" = false ->
  instanceof_SyntaxError error = true ->
  includes (message error) "JSON" = true ->
  classify error = ("Invalid JSON in request body.", 400).
Proof. intros H1 H2 H3 H4 H5. unfold classify. now rewrite H1, H2, H3, H4, H5. Qed.

Lemma classify_other (error : js_error) :
  message_mentions error "api key not valid" = false ->
  message_mentions error "quota" = false ->
  message_mentions error "model not found" = false ->
  instanceof_SyntaxError error && includes (message error) "JSON" = false ->
  classify error = (raw_or_fallback error, 500).
Proof.
  intros H1 H2 H3 H4. unfold classify, raw_or_fallback.
  rewrite H1, H2, H3, H4. cbn [truthy].
  now destruct (String.eqb (message error) EmptyString).
Qed.

(** Status 400 leaves the [catch] block through its fourth branch only. *)
Lemma classify_400 (error : js_error) :
  snd (classify error) = 400 ->
  instanceof_SyntaxError error = true /\ includes (message error) "JSON" = true.
Proof.
  unfold classify.
  destruct (message_mentions error "api key not valid"); [discriminate|].
  destruct (message_mentions error "quota"); [discriminate|].
  destruct (message_mentions error "model not found"); [discriminate|].
  destruct (instanceof_SyntaxError error); [|discriminate].
  destruct (includes (message error) "JSON"); [now split | discriminate].
Qed.

(** No branch of the [catch] block answers 200. *)
Lemma classify_not_200 (error : js_error) : snd (classify error) <> 200.
Proof.
  unfold classify.
  repeat match goal with
         | |- context [if ?c then _ else _] => destruct c
         end; discriminate.
Qed.

End CatchBlock.

(** ** The [try] block *)

Section TryBlock.

Context {engine : JsEngine}.

(** What the [try] block does once the body has parsed to [reqBody] and
    the prompt read from it is falsy. *)
Lemma try_block_falsy_prompt (w : world) (apiKey : string) (reqBody userPrompt : js_value) :
  request_json w = inr reqBody ->
  read_prompt reqBody [] = (inr userPrompt, []) ->
  truthy userPrompt = false ->
  try_block w apiKey [] = (inr prompt_missing, [Console LevelWarn NoPromptProvided]).
Proof.
  intros Hbody Hread Hfalsy.
  unfold try_block, bind. rewrite Hbody. cbn [await ret].
  rewrite Hread, Hfalsy. reflexivity.
Qed.

(** Reading the prompt succeeds on every body but [null] and [undefined],
    and logs nothing. *)
Lemma read_prompt_total (reqBody : js_value) (log : list event) :
  reqBody <> JNull -> reqBody <> JUndefined ->
  exists userPrompt, read_prompt reqBody log = (inr userPrompt, log).
Proof.
  intros Hnull Hundef.
  destruct reqBody; try contradiction; unfold read_prompt, ret; eauto.
Qed.

(** A request is rejected by the [try] block itself with the missing-prompt
    response, or answered with the text of the upstream service. *)
Lemma try_block_returns (w : world) (apiKey : string) (r : response) (log : list event) :
  try_block w apiKey [] = (inr r, log) ->
  (r = prompt_missing /\ upstream_invoked log = false) \/
  (exists text, r = NextResponse_json [("reply", JStr text)] None).
Proof.
  unfold try_block, bind.
  destruct (request_json w) as [e | reqBody]; cbn [await throw ret]; [discriminate|].
  destruct (read_prompt reqBody []) as [[e | userPrompt] log1] eqn:Hread; [discriminate|].
  assert (log1 = []) as ->.
  { destruct reqBody; unfold read_prompt, throw, ret in Hread; congruence. }
  destruct (truthy userPrompt); cbn [negb].
  - unfold template_literal.
    destruct (string_conversion_fails userPrompt); cbn [throw ret]; [discriminate|].
    unfold generate_text, bind, console, emit.
    destruct (generateContent w apiKey "gemini-pro" userPrompt) as [e | text];
      cbn [await throw ret]; [discriminate|].
    intros H. injection H as <- _. right. now exists text.
  - cbn. intros H. injection H as <- <-. now left.
Qed.

End TryBlock.

(** ** The handler *)

Section Claims.

Context {engine : JsEngine}.

Lemma key_configured_inv (w : world) :
  key_configured w = true ->
  exists apiKey, GEMINI_API_KEY w = Some apiKey /\ truthy (JStr apiKey) = true.
Proof.
  unfold key_configured. destruct (GEMINI_API_KEY w) as [apiKey|]; [|discriminate].
  intros H. now exists apiKey.
Qed.

(** A rejection of [request.json()] goes straight to the [catch] block. *)
Lemma unparsed_caught (w : world) (error : js_error) :
  key_configured w = true ->
  request_json w = inl error ->
  caught w error /\ upstream_invoked (snd (POST w)) = false.
Proof.
  intros Hkey Hbody. destruct (key_configured_inv w Hkey) as (apiKey & Hk & Ht).
  assert (Htry : try_block w apiKey [] = (inl error, [])).
  { unfold try_block, bind. now rewrite Hbody. }
  split.
  - now exists apiKey, [].
  - unfold POST. rewrite Hk, Ht, Htry. cbn [negb]. now rewrite catch_block_log.
Qed.

(** A request whose body parsed and whose prompt is falsy is answered 400
    before the upstream service is contacted, whenever reading the prompt
    does not itself fail. *)
Lemma falsy_prompt_400 (w : world) (reqBody userPrompt : js_value) :
  key_configured w = true ->
  request_json w = inr reqBody ->
  read_prompt reqBody [] = (inr userPrompt, []) ->
  truthy userPrompt = false ->
  POST w = (prompt_missing, [Console LevelWarn NoPromptProvided]).
Proof.
  intros Hkey Hbody Hread Hfalsy.
  destruct (key_configured_inv w Hkey) as (apiKey & Hk & Ht).
  unfold POST. rewrite Hk, Ht. cbn [negb].
  now rewrite (try_block_falsy_prompt w apiKey reqBody userPrompt).
Qed.

(** A body that is an object without a [prompt] member, or any JSON value
    other than an object and [null], is answered 400. *)
Lemma no_prompt_member_400 (w : world) (reqBody : js_value) :
  key_configured w = true ->
  request_json w = inr reqBody ->
  reqBody <> JNull -> reqBody <> JUndefined ->
  match reqBody with JObj fields => own_property fields "prompt" = None | _ => True end ->
  fst (POST w) = prompt_missing /\ upstream_invoked (snd (POST w)) = false.
Proof.
  intros Hkey Hbody Hnull Hundef Hmember.
  rewrite (falsy_prompt_400 w reqBody JUndefined Hkey Hbody); [now split | | reflexivity].
  destruct reqBody; try contradiction; try reflexivity.
  unfold read_prompt. now rewrite Hmember.
Qed.

(** The body [null] has no [prompt] member either, but reading the member
    raises a [TypeError], and no [TypeError] is answered 400. *)
Lemma null_body_not_400 (w : world) :
  key_configured w = true ->
  request_json w = inr JNull ->
  status (fst (POST w)) <> 400 /\ upstream_invoked (snd (POST w)) = false.
Proof.
  intros Hkey Hbody. destruct (key_configured_inv w Hkey) as (apiKey & Hk & Ht).
  set (error := mkError TypeError (nullish_read_message "null" "prompt")).
  assert (Htry : try_block w apiKey [] = (inl error, [])).
  { unfold try_block, bind. now rewrite Hbody. }
  split.
  - rewrite (POST_caught w error) by now exists apiKey, [].
    cbn [status NextResponse_json]. intros H.
    now destruct (classify_400 error H).
  - unfold POST. rewrite Hk, Ht, Htry. cbn [negb]. now rewrite catch_block_log.
Qed.

(** An API key that is set to the empty string counts as missing. *)
Lemma empty_key_500 (w : world) :
  GEMINI_API_KEY w = Some EmptyString ->
  POST w = key_missing.
Proof. intros Hk. unfold POST. now rewrite Hk. Qed.

(** C1, as the handler has it: every response other than 200 carries an
    [error] string.  A response built from a caught exception also carries
    [details], the pointer to the server logs; the two responses sent before
    anything is thrown (no API key: 500; no prompt: 400) have no [details]
    member. *)
Theorem error_response_members (w : world) :
  status (fst (POST w)) <> 200 ->
  (exists m, error_of (fst (POST w)) = Some (JStr m)) /\
  (((exists error, caught w error) /\
    details_of (fst (POST w)) = Some (JStr details_text))
   \/
   ((fst (POST w) = fst key_missing \/ fst (POST w) = prompt_missing) /\
    details_of (fst (POST w)) = None)).
Proof.
  unfold POST.
  destruct (GEMINI_API_KEY w) as [apiKey|] eqn:Hk.
  2:{ intros _. split; [now eexists | right; split; [now left | reflexivity]]. }
  destruct (truthy (JStr apiKey)) eqn:Ht; cbn [negb].
  2:{ intros _. split; [now eexists | right; split; [now left | reflexivity]]. }
  destruct (try_block w apiKey []) as [[error | r] log] eqn:Htry.
  - intros _. rewrite catch_block_response. split; [now eexists|].
    left. split; [|reflexivity]. exists error. now exists apiKey, log.
  - cbn [fst]. intros Hstatus.
    destruct (try_block_returns w apiKey r log Htry) as [[-> _] | [text ->]].
    + split; [now eexists | right; split; [now right | reflexivity]].
    + now contradiction Hstatus.
Qed.

(** C3: without an API key in the environment the handler answers 500 with
    the missing-configuration error and never contacts the upstream
    service, whatever the request body is. *)
Theorem missing_key_500 (w : world) :
  GEMINI_API_KEY w = None ->
  status (fst (POST w)) = 500 /\
  body (fst (POST w)) = [("error", JStr "AI service not configured. API Key missing.")] /\
  upstream_invoked (snd (POST w)) = false.
Proof. intros Hk. unfold POST. rewrite Hk. now repeat split. Qed.

(** C4: a caught exception whose message mentions "api key not valid" in
    any letter case is answered 401 with the fixed text about the key. *)
Theorem invalid_key_401 (w : world) (error : js_error) :
  caught w error ->
  message_mentions error "api key not valid" = true ->
  status (fst (POST w)) = 401 /\
  error_of (fst (POST w)) =
  Some (JStr "Gemini API Key is not valid. Please check your .env.local file and ensure it's correct.").
Proof.
  intros Hcaught Hrow. rewrite (POST_caught w error Hcaught).
  rewrite (classify_api_key error Hrow). now split.
Qed.

(** C5: a caught exception whose message mentions "quota" in any letter
    case, and not "api key not valid", is answered 429 with the fixed quota
    text; whether it also mentions "model not found" makes no difference. *)
Theorem quota_429 (w : world) (error : js_error) :
  caught w error ->
  message_mentions error "api key not valid" = false ->
  message_mentions error "quota" = true ->
  status (fst (POST w)) = 429 /\
  error_of (fst (POST w)) =
  Some (JStr "API quota exceeded. Please check your Google Cloud console.").
Proof.
  intros Hcaught Hkey Hrow. rewrite (POST_caught w error Hcaught).
  rewrite (classify_quota error Hkey Hrow). now split.
Qed.

(** C6: a caught exception whose message mentions "model not found" in any
    letter case, and neither "api key not valid" nor "quota", is answered
    404 with the fixed text about the model. *)
Theorem model_not_found_404 (w : world) (error : js_error) :
  caught w error ->
  message_mentions error "api key not valid" = false ->
  message_mentions error "quota" = false ->
  message_mentions error "model not found" = true ->
  status (fst (POST w)) = 404 /\
  error_of (fst (POST w)) =
  Some (JStr "The specified AI model was not found. Check the model name.").
Proof.
  intros Hcaught Hkey Hquota Hrow. rewrite (POST_caught w error Hcaught).
  rewrite (classify_model error Hkey Hquota Hrow). now split.
Qed.

(** The fourth branch of the [catch] block: a rejection of
    [request.json()] that is a [SyntaxError] with "JSON" in its message is
    answered 400 with "Invalid JSON in request body." when its message
    passes none of the three tests made before. *)
Theorem invalid_json_400 (w : world) (error : js_error) :
  key_configured w = true ->
  request_json w = inl error ->
  instanceof_SyntaxError error = true ->
  includes (message error) "JSON" = true ->
  message_mentions error "api key not valid" = false ->
  message_mentions error "quota" = false ->
  message_mentions error "model not found" = false ->
  status (fst (POST w)) = 400 /\
  error_of (fst (POST w)) = Some (JStr "Invalid JSON in request body.") /\
  upstream_invoked (snd (POST w)) = false.
Proof.
  intros Hkey Hbody Hsyntax Hjson H1 H2 H3.
  destruct (unparsed_caught w error Hkey Hbody) as [Hcaught Hquiet].
  rewrite (POST_caught w error Hcaught).
  rewrite (classify_json error H1 H2 H3 Hsyntax Hjson). now repeat split.
Qed.

(** C8: a body that parsed to an object whose [prompt] is a non-empty
    string, with an upstream call that returns the text [t], is answered
    200 with the body [{ reply: t }] and nothing else. *)
Theorem reply_200 (w : world) (apiKey : string)
    (fields : list (string * js_value)) (prompt t : string) :
  GEMINI_API_KEY w = Some apiKey ->
  truthy (JStr apiKey) = true ->
  request_json w = inr (JObj fields) ->
  own_property fields "prompt" = Some (JStr prompt) ->
  truthy (JStr prompt) = true ->
  generateContent w apiKey "gemini-pro" (JStr prompt) = inr t ->
  fst (POST w) = {| body := [("reply", JStr t)]; status := 200 |} /\
  snd (POST w) =
  [Console LevelLog (PromptReceived (JStr prompt));
   Console LevelLog ContactingGemini;
   UpstreamCall apiKey "gemini-pro" (JStr prompt);
   Console LevelLog (ResponseText t)].
Proof.
  intros Hk Ht Hbody Hprompt Htruthy Hsdk.
  unfold POST. rewrite Hk, Ht. cbn [negb].
  unfold try_block, bind. rewrite Hbody. cbn [await ret read_prompt].
  rewrite Hprompt, Htruthy. cbn [negb template_literal string_conversion_fails ret].
  unfold generate_text, bind, console, emit. rewrite Hsdk. now split.
Qed.

(** C9: a caught exception that no branch of the [catch] block recognises
    is answered 500 with its own message, or with "Failed to get response
    from AI." when it carries none. *)
Theorem unclassified_500 (w : world) (error : js_error) :
  caught w error ->
  message_mentions error "api key not valid" = false ->
  message_mentions error "quota" = false ->
  message_mentions error "model not found" = false ->
  instanceof_SyntaxError error && includes (message error) "JSON" = false ->
  status (fst (POST w)) = 500 /\
  error_of (fst (POST w)) = Some (JStr (raw_or_fallback error)).
Proof.
  intros Hcaught H1 H2 H3 H4. rewrite (POST_caught w error Hcaught).
  rewrite (classify_other error H1 H2 H3 H4). now split.
Qed.

(** C10: a JSON-parse failure, the rejection of [request.json()], is
    answered 400 only when the exception is a [SyntaxError] whose message
    contains "JSON", matched with its capitals.  When the message lacks
    "JSON" and passes none of the three earlier tests, the answer is 500
    with the text the [catch] block starts from: the raw message of the
    exception whenever it carries one. *)
Theorem json_parse_failure_classification (w : world) (error : js_error) :
  key_configured w = true ->
  request_json w = inl error ->
  (status (fst (POST w)) = 400 ->
   instanceof_SyntaxError error = true /\ includes (message error) "JSON" = true) /\
  (includes (message error) "JSON" = false ->
   message_mentions error "api key not valid" = false ->
   message_mentions error "quota" = false ->
   message_mentions error "model not found" = false ->
   status (fst (POST w)) = 500 /\
   error_of (fst (POST w)) = Some (JStr (raw_or_fallback error)) /\
   (message error <> EmptyString ->
    error_of (fst (POST w)) = Some (JStr (message error)))).
Proof.
  intros Hkey Hbody.
  destruct (unparsed_caught w error Hkey Hbody) as [Hcaught _].
  rewrite (POST_caught w error Hcaught). split.
  - cbn [status NextResponse_json]. apply classify_400.
  - intros Hjson H1 H2 H3.
    rewrite (classify_other error H1 H2 H3) by (rewrite Hjson; apply andb_false_r).
    split; [reflexivity|]. split; [reflexivity|].
    intros Hmessage. apply String.eqb_neq in Hmessage.
    unfold raw_or_fallback. now rewrite Hmessage.
Qed.

End Claims.

(** ** The handler on the sample worlds *)

(** Under ASCII lower-casing, a message that contains [needle] in any mix
    of upper and lower case passes the test of the [catch] block. *)
Lemma message_mentions_any_case (cls : error_class) (a u b needle : string) :
  needle <> EmptyString ->
  toLowerCase_ascii u = needle ->
  message_mentions (engine := v8) (mkError cls (a ++ u ++ b)) needle = true.
Proof.
  intros Hne Hu. unfold message_mentions. cbn [message toLowerCase v8].
  rewrite (includes_any_case a u b needle Hu), andb_true_r.
  cbn [truthy]. apply negb_true_iff, String.eqb_neq.
  destruct a; [|discriminate]. destruct u; [|discriminate].
  now contradiction Hne.
Qed.

(** C1 fails where the handler answers before its [try] block: without an
    API key the answer is 500, without a prompt it is 400, and neither body
    has a [details] member. *)
Lemma details_absent_before_try :
  (status (fst (POST (engine := v8) (keyless_world (inr hello_body)))) = 500 /\
   details_of (fst (POST (engine := v8) (keyless_world (inr hello_body)))) = None) /\
  (status (fst (POST (engine := v8) (body_world (JObj [])))) = 400 /\
   details_of (fst (POST (engine := v8) (body_world (JObj [])))) = None).
Proof. repeat split. Qed.

(** The members of the 500 sent when the SDK fails with a network error. *)
Lemma error_response_members_witness :
  status (fst (POST (engine := v8) (hello_world (failing_sdk network_error)))) <> 200 /\
  ((exists m,
      error_of (fst (POST (engine := v8) (hello_world (failing_sdk network_error))))
      = Some (JStr m)) /\
   (((exists error, caught (engine := v8) (hello_world (failing_sdk network_error)) error) /\
     details_of (fst (POST (engine := v8) (hello_world (failing_sdk network_error))))
     = Some (JStr details_text))
    \/
    ((fst (POST (engine := v8) (hello_world (failing_sdk network_error))) = fst key_missing \/
      fst (POST (engine := v8) (hello_world (failing_sdk network_error))) = prompt_missing) /\
     details_of (fst (POST (engine := v8) (hello_world (failing_sdk network_error)))) = None))).
Proof.
  split.
  - vm_compute. discriminate.
  - apply (error_response_members (engine := v8) (hello_world (failing_sdk network_error))).
    vm_compute. discriminate.
Defined.

(** C2 at the body [null]: the handler answers 500 with the engine's
    [TypeError] text, not 400. *)
Theorem null_body_500 :
  POST (engine := v8) (body_world JNull) =
  ({| body := [("error", JStr "Cannot read properties of null (reading 'prompt')");
               ("details", JStr "See server logs for more information.")];
      status := 500 |},
   [Console LevelError
      (CaughtError (mkError TypeError "Cannot read properties of null (reading 'prompt')"));
    Console LevelError
      (ErrorDetails (mkError TypeError "Cannot read properties of null (reading 'prompt')"))]).
Proof. reflexivity. Qed.

(** No key and a body that does not parse: still the 500 of the key check. *)
Lemma missing_key_500_witness :
  GEMINI_API_KEY (keyless_world (inl empty_parse_error)) = None /\
  (status (fst (POST (engine := v8) (keyless_world (inl empty_parse_error)))) = 500 /\
   body (fst (POST (engine := v8) (keyless_world (inl empty_parse_error))))
   = [("error", JStr "AI service not configured. API Key missing.")] /\
   upstream_invoked (snd (POST (engine := v8) (keyless_world (inl empty_parse_error)))) = false).
Proof.
  split.
  - reflexivity.
  - apply (missing_key_500 (engine := v8) (keyless_world (inl empty_parse_error))).
    reflexivity.
Defined.

(** Settles [caught] on a concrete world by running its [try] block. *)
Ltac run_try_block :=
  eexists; eexists; split; [reflexivity | split; [reflexivity | cbv; reflexivity]].

(** The SDK refuses the key. *)
Lemma invalid_key_401_witness :
  caught (engine := v8) (hello_world (failing_sdk invalid_key_error)) invalid_key_error /\
  message_mentions (engine := v8) invalid_key_error "api key not valid" = true /\
  status (fst (POST (engine := v8) (hello_world (failing_sdk invalid_key_error)))) = 401 /\
  error_of (fst (POST (engine := v8) (hello_world (failing_sdk invalid_key_error)))) =
  Some (JStr "Gemini API Key is not valid. Please check your .env.local file and ensure it's correct.").
Proof.
  assert (Hcaught : caught (engine := v8)
                      (hello_world (failing_sdk invalid_key_error)) invalid_key_error)
    by run_try_block.
  split; [exact Hcaught | split; [reflexivity|]].
  apply (invalid_key_401 (engine := v8) _ invalid_key_error Hcaught). reflexivity.
Defined.

(** A message that mentions both the quota and a model that was not found. *)
Lemma quota_429_witness :
  caught (engine := v8) (hello_world (failing_sdk quota_error)) quota_error /\
  message_mentions (engine := v8) quota_error "api key not valid" = false /\
  message_mentions (engine := v8) quota_error "quota" = true /\
  message_mentions (engine := v8) quota_error "model not found" = true /\
  status (fst (POST (engine := v8) (hello_world (failing_sdk quota_error)))) = 429 /\
  error_of (fst (POST (engine := v8) (hello_world (failing_sdk quota_error)))) =
  Some (JStr "API quota exceeded. Please check your Google Cloud console.").
Proof.
  assert (Hcaught : caught (engine := v8)
                      (hello_world (failing_sdk quota_error)) quota_error)
    by run_try_block.
  split; [exact Hcaught | do 3 (split; [reflexivity|])].
  apply (quota_429 (engine := v8) _ quota_error Hcaught); reflexivity.
Defined.

(** The SDK does not know the model; the message has capitals. *)
Lemma model_not_found_404_witness :
  caught (engine := v8) (hello_world (failing_sdk model_error)) model_error /\
  message_mentions (engine := v8) model_error "api key not valid" = false /\
  message_mentions (engine := v8) model_error "quota" = false /\
  message_mentions (engine := v8) model_error "model not found" = true /\
  status (fst (POST (engine := v8) (hello_world (failing_sdk model_error)))) = 404 /\
  error_of (fst (POST (engine := v8) (hello_world (failing_sdk model_error)))) =
  Some (JStr "The specified AI model was not found. Check the model name.").
Proof.
  assert (Hcaught : caught (engine := v8)
                      (hello_world (failing_sdk model_error)) model_error)
    by run_try_block.
  split; [exact Hcaught | do 3 (split; [reflexivity|])].
  apply (model_not_found_404 (engine := v8) _ model_error Hcaught); reflexivity.
Defined.

(** C7 at the request body [quota]: the body is not valid JSON and
    [request.json()] rejects with a [SyntaxError] that has "JSON" in its
    message, but V8 quotes the body in that message, the test for "quota"
    comes first, and the handler answers 429 with the quota text. *)
Theorem quota_body_429 :
  key_configured (unparsed_world quota_parse_error) = true /\
  request_json (unparsed_world quota_parse_error) = inl quota_parse_error /\
  instanceof_SyntaxError quota_parse_error = true /\
  includes (message quota_parse_error) "JSON" = true /\
  POST (engine := v8) (unparsed_world quota_parse_error) =
  ({| body := [("error", JStr "API quota exceeded. Please check your Google Cloud console.");
               ("details", JStr "See server logs for more information.")];
      status := 429 |},
   [Console LevelError (CaughtError quota_parse_error);
    Console LevelError (ErrorDetails quota_parse_error)]).
Proof. repeat split. Qed.

(** An empty request body. *)
Lemma invalid_json_400_witness :
  key_configured (unparsed_world empty_parse_error) = true /\
  request_json (unparsed_world empty_parse_error) = inl empty_parse_error /\
  instanceof_SyntaxError empty_parse_error = true /\
  includes (message empty_parse_error) "JSON" = true /\
  message_mentions (engine := v8) empty_parse_error "api key not valid" = false /\
  message_mentions (engine := v8) empty_parse_error "quota" = false /\
  message_mentions (engine := v8) empty_parse_error "model not found" = false /\
  status (fst (POST (engine := v8) (unparsed_world empty_parse_error))) = 400 /\
  error_of (fst (POST (engine := v8) (unparsed_world empty_parse_error)))
  = Some (JStr "Invalid JSON in request body.") /\
  upstream_invoked (snd (POST (engine := v8) (unparsed_world empty_parse_error))) = false.
Proof.
  do 7 (split; [reflexivity|]).
  apply (invalid_json_400 (engine := v8) (unparsed_world empty_parse_error) empty_parse_error);
    reflexivity.
Defined.

(** The request [{"prompt": "hello"}] with an SDK that answers "hi there". *)
Lemma reply_200_witness :
  GEMINI_API_KEY (hello_world (healthy_sdk "hi there")) = Some "secret-key" /\
  truthy (JStr "secret-key") = true /\
  request_json (hello_world (healthy_sdk "hi there")) = inr (JObj [("prompt", JStr "hello")]) /\
  own_property [("prompt", JStr "hello")] "prompt" = Some (JStr "hello") /\
  truthy (JStr "hello") = true /\
  generateContent (hello_world (healthy_sdk "hi there")) "secret-key" "gemini-pro" (JStr "hello")
  = inr "hi there" /\
  fst (POST (engine := v8) (hello_world (healthy_sdk "hi there")))
  = {| body := [("reply", JStr "hi there")]; status := 200 |} /\
  snd (POST (engine := v8) (hello_world (healthy_sdk "hi there"))) =
  [Console LevelLog (PromptReceived (JStr "hello"));
   Console LevelLog ContactingGemini;
   UpstreamCall "secret-key" "gemini-pro" (JStr "hello");
   Console LevelLog (ResponseText "hi there")].
Proof.
  do 6 (split; [reflexivity|]).
  apply (reply_200 (engine := v8) (hello_world (healthy_sdk "hi there")) "secret-key"
           [("prompt", JStr "hello")] "hello" "hi there"); reflexivity.
Defined.

(** A network failure is passed on with its own message. *)
Lemma unclassified_500_witness :
  caught (engine := v8) (hello_world (failing_sdk network_error)) network_error /\
  message_mentions (engine := v8) network_error "api key not valid" = false /\
  message_mentions (engine := v8) network_error "quota" = false /\
  message_mentions (engine := v8) network_error "model not found" = false /\
  instanceof_SyntaxError network_error && includes (message network_error) "JSON" = false /\
  status (fst (POST (engine := v8) (hello_world (failing_sdk network_error)))) = 500 /\
  error_of (fst (POST (engine := v8) (hello_world (failing_sdk network_error))))
  = Some (JStr "fetch failed").
Proof.
  assert (Hcaught : caught (engine := v8)
                      (hello_world (failing_sdk network_error)) network_error)
    by run_try_block.
  split; [exact Hcaught | do 4 (split; [reflexivity|])].
  apply (unclassified_500 (engine := v8) _ network_error Hcaught); reflexivity.
Defined.

(** Two parse failures: V8's for an empty body, answered 400, and one
    worded with "json" in lower case, answered 500 with its own message. *)
Lemma json_parse_failure_classification_witness :
  (key_configured (unparsed_world empty_parse_error) = true /\
   request_json (unparsed_world empty_parse_error) = inl empty_parse_error /\
   status (fst (POST (engine := v8) (unparsed_world empty_parse_error))) = 400 /\
   instanceof_SyntaxError empty_parse_error = true /\
   includes (message empty_parse_error) "JSON" = true) /\
  (key_configured (unparsed_world lowercase_parse_error) = true /\
   request_json (unparsed_world lowercase_parse_error) = inl lowercase_parse_error /\
   includes (message lowercase_parse_error) "JSON" = false /\
   message_mentions (engine := v8) lowercase_parse_error "api key not valid" = false /\
   message_mentions (engine := v8) lowercase_parse_error "quota" = false /\
   message_mentions (engine := v8) lowercase_parse_error "model not found" = false /\
   message lowercase_parse_error <> EmptyString /\
   status (fst (POST (engine := v8) (unparsed_world lowercase_parse_error))) = 500 /\
   error_of (fst (POST (engine := v8) (unparsed_world lowercase_parse_error)))
   = Some (JStr "Unexpected end of json input")).
Proof.
  split.
  - do 3 (split; [reflexivity|]).
    apply (proj1 (json_parse_failure_classification (engine := v8)
                    (unparsed_world empty_parse_error) empty_parse_error
                    eq_refl eq_refl)).
    reflexivity.
  - do 6 (split; [reflexivity|]). split; [discriminate|].
    destruct (proj2 (json_parse_failure_classification (engine := v8)
                       (unparsed_world lowercase_parse_error) lowercase_parse_error
                       eq_refl eq_refl)
                eq_refl eq_refl eq_refl eq_refl) as (Hstatus & _ & Hraw).
    split; [exact Hstatus | apply Hraw; discriminate].
Defined.

(** * Further properties of the handler *)

Section PathProperties.

Context {engine : JsEngine}.

(** The handler always ends on one of the paths of [handled]. *)
Lemma POST_handled (w : world) : handled w (POST w).
Proof.
  unfold POST.
  destruct (GEMINI_API_KEY w) as [apiKey|] eqn:Hk.
  2:{ apply handled_no_key. unfold key_configured. now rewrite Hk. }
  destruct (truthy (JStr apiKey)) eqn:Ht; cbn [negb].
  2:{ apply handled_no_key. unfold key_configured. now rewrite Hk. }
  unfold try_block, bind.
  destruct (request_json w) as [e | reqBody] eqn:Hbody; cbn [await throw ret].
  { eapply handled_rejected; eassumption. }
  destruct (read_prompt reqBody []) as [[e | userPrompt] log] eqn:Hread.
  - assert (log = []) as -> by (destruct reqBody; unfold read_prompt, throw, ret in Hread; congruence).
    eapply handled_unreadable; eassumption.
  - assert (log = []) as -> by (destruct reqBody; unfold read_prompt, throw, ret in Hread; congruence).
    destruct (truthy userPrompt) eqn:Hp; cbn [negb].
    + unfold template_literal.
      destruct (string_conversion_fails userPrompt) eqn:Hs; cbn [throw ret].
      * eapply handled_unprintable; eassumption.
      * unfold generate_text, bind, console, emit.
        destruct (generateContent w apiKey "gemini-pro" userPrompt) as [e | text] eqn:Hsdk;
          cbn [await throw ret].
        -- eapply handled_upstream_failed; eassumption.
        -- eapply handled_replied; eassumption.
    + eapply handled_no_prompt; eassumption.
Qed.

(** The five outcomes of the [catch] block. *)
Lemma classify_table (error : js_error) :
  In (classify error)
    [("Gemini API Key is not valid. Please check your .env.local file and ensure it's correct.", 401);
     ("API quota exceeded. Please check your Google Cloud console.", 429);
     ("The specified AI model was not found. Check the model name.", 404);
     ("Invalid JSON in request body.", 400);
     (raw_or_fallback error, 500)].
Proof.
  unfold classify, raw_or_fallback. cbn [truthy In].
  destruct (message_mentions error "api key not valid"); [now left|].
  destruct (message_mentions error "quota"); [now right; left|].
  destruct (message_mentions error "model not found"); [now right; right; left|].
  destruct (instanceof_SyntaxError error && includes (message error) "JSON");
    [now right; right; right; left|].
  right; right; right; right; left.
  now destruct (String.eqb (message error) EmptyString).
Qed.

Lemma catch_block_silent (error : js_error) (log : list event) :
  upstream_calls (snd (catch_block error log)) = upstream_calls log.
Proof.
  rewrite catch_block_log. unfold upstream_calls.
  rewrite filter_app. cbn. apply app_nil_r.
Qed.

End PathProperties.

(** Case analysis on the path the handler takes in the world [w]. *)
Ltac handler_paths w :=
  let Hpath := fresh "Hpath" in
  let out := fresh "out" in
  let Hout := fresh "Hout" in
  pose proof (POST_handled w) as Hpath;
  remember (POST w) as out eqn:Hout;
  destruct Hpath.

Section Responses.

Context {engine : JsEngine}.

(** X1: whatever the environment, the body and the upstream service are,
    the status of the response is one of 200, 400, 401, 404, 429 and 500. *)
Theorem status_codes (w : world) :
  In (status (fst (POST w))) [200; 400; 401; 404; 429; 500].
Proof.
  handler_paths w; try rewrite catch_block_response;
    cbn [fst status NextResponse_json key_missing prompt_missing];
    try match goal with
        | |- context [classify ?e] =>
            pose proof (classify_table e) as Htable;
            destruct (classify e) as [text code]; cbn [snd]; cbn [In] in Htable;
            repeat match type of Htable with
                   | _ \/ _ => destruct Htable as [Htable | Htable]
                   end;
            try contradiction; injection Htable as _ <-
        end;
    cbn [In]; tauto.
Qed.

End Responses.

Section ResponseBodies.

Context {engine : JsEngine}.

(** The response of the [catch] block, with the row of the table it took. *)
Lemma catch_block_cases (error : js_error) (log : list event) :
  exists text code,
    fst (catch_block error log) =
    {| body := [("error", JStr text); ("details", JStr details_text)]; status := code |} /\
    ((In text fixed_error_texts /\ In code [400; 401; 404; 429]) \/
     (text = raw_or_fallback error /\ code = 500)).
Proof.
  rewrite catch_block_response.
  pose proof (classify_table error) as Htable.
  destruct (classify error) as [text code]. exists text, code.
  split; [reflexivity|]. cbn [In] in Htable.
  repeat match type of Htable with
         | _ \/ _ => destruct Htable as [Htable | Htable]
         end;
    try contradiction; injection Htable as <- <-;
    try (left; split; cbn [In fixed_error_texts]; tauto).
  now right.
Qed.

(** X2: the text of an exception reaches the client under status 500 only.
    Under every other status the [error] member is one of the six texts the
    handler words itself. *)
Theorem exception_text_only_under_500 (w : world) (text : string) :
  error_of (fst (POST w)) = Some (JStr text) ->
  status (fst (POST w)) <> 500 ->
  In text fixed_error_texts.
Proof.
  handler_paths w;
    try match goal with
        | |- context [catch_block ?e ?l] =>
            destruct (catch_block_cases e l)
              as (text' & code & -> & [[Htext Hcode] | [-> ->]])
        end;
    cbn [fst key_missing prompt_missing NextResponse_json];
    unfold error_of; cbn; intros Herror Hstatus;
    try discriminate; try (now contradiction Hstatus);
    injection Herror as <-; cbn [In fixed_error_texts]; tauto.
Qed.

(** X3: a response with status 200 is a relay and nothing else: the key
    was configured, the body parsed, its prompt was truthy, the upstream
    service was called for it and returned a text, and the body of the
    response is [{ reply: text }]. *)
Theorem ok_is_a_relay (w : world) :
  status (fst (POST w)) = 200 ->
  exists apiKey reqBody userPrompt text,
    GEMINI_API_KEY w = Some apiKey /\
    request_json w = inr reqBody /\
    read_prompt reqBody [] = (inr userPrompt, []) /\
    truthy userPrompt = true /\
    generateContent w apiKey "gemini-pro" userPrompt = inr text /\
    body (fst (POST w)) = [("reply", JStr text)] /\
    upstream_calls (snd (POST w)) = [UpstreamCall apiKey "gemini-pro" userPrompt].
Proof.
  handler_paths w;
    try match goal with
        | |- context [catch_block ?e ?l] =>
            destruct (catch_block_cases e l)
              as (text' & code & -> & [[Htext Hcode] | [-> ->]]);
            cbn [In] in *
        end;
    cbn [fst status key_missing prompt_missing NextResponse_json];
    intros Hstatus; try discriminate;
    try (intuition (subst; discriminate)).
  exists apiKey, reqBody, userPrompt, text. now repeat split.
Qed.

(** X4: the upstream service is contacted exactly when the key is
    configured, the body has parsed, the prompt read from it is truthy and
    it can be written into the log line. *)
Theorem upstream_invoked_iff (w : world) :
  upstream_invoked (snd (POST w)) = true <->
  exists apiKey reqBody userPrompt,
    GEMINI_API_KEY w = Some apiKey /\ truthy (JStr apiKey) = true /\
    request_json w = inr reqBody /\
    read_prompt reqBody [] = (inr userPrompt, []) /\
    truthy userPrompt = true /\
    string_conversion_fails userPrompt = false.
Proof.
  handler_paths w; try rewrite catch_block_log; cbn [snd key_missing];
    (split;
     [ intros Hcalled; try discriminate;
       try (now exists apiKey, reqBody, userPrompt)
     | intros (apiKey' & reqBody' & userPrompt' & Hk & Ht & Hbody & Hread & Hp & Hs);
       try reflexivity;
       try (unfold key_configured in *; rewrite Hk in *; congruence);
       try congruence ]).
Qed.

(** X5: the handler calls the upstream service at most once, and if it
    does, the call carries the key of the environment, the model
    "gemini-pro" and the prompt as it was read from the body. *)
Theorem upstream_called_at_most_once (w : world) :
  upstream_calls (snd (POST w)) = [] \/
  exists apiKey reqBody userPrompt,
    GEMINI_API_KEY w = Some apiKey /\
    request_json w = inr reqBody /\
    read_prompt reqBody [] = (inr userPrompt, []) /\
    upstream_calls (snd (POST w)) = [UpstreamCall apiKey "gemini-pro" userPrompt].
Proof.
  handler_paths w; try rewrite catch_block_silent; cbn [snd key_missing];
    try (now left);
    right; exists apiKey, reqBody, userPrompt; now repeat split.
Qed.

(** X6: the missing-configuration response is sent exactly when the
    environment holds no key or an empty one. *)
Theorem key_missing_iff (w : world) :
  key_configured w = false <-> fst (POST w) = fst key_missing.
Proof.
  handler_paths w;
    try match goal with
        | |- context [catch_block ?e ?l] =>
            destruct (catch_block_cases e l) as (text' & code & -> & _)
        end;
    cbn [fst key_missing prompt_missing NextResponse_json];
    (split; [intros Hkey | intros Hresp]);
    try reflexivity; try assumption; try discriminate;
    unfold key_configured in *;
    repeat match goal with
           | H : GEMINI_API_KEY w = Some _ |- _ => rewrite H in *
           end;
    congruence.
Qed.

End ResponseBodies.

(** Brings the facts of the path at hand together with the hypotheses on
    the same world: equal left-hand sides are merged, impossible paths
    closed. *)
Ltac same_world :=
  unfold key_configured in *;
  repeat match goal with
         | Hk : GEMINI_API_KEY ?w = _,
           H : match GEMINI_API_KEY ?w with Some _ => _ | None => _ end = _ |- _ =>
             rewrite Hk in H
         | H1 : ?x = _, H2 : ?x = _ |- _ =>
             rewrite H1 in H2;
             first [discriminate H2 | injection H2 as H2; subst | clear H2]
         end.

Section Prompts.

Context {engine : JsEngine}.

(** Only arrays and objects can fail to convert, and they are truthy. *)
Lemma unprintable_truthy (v : js_value) :
  string_conversion_fails v = true -> truthy v = true.
Proof. destruct v; cbn; congruence. Qed.

(** X7: once the body has parsed and the prompt could be read, the handler
    answers with the missing-prompt 400 exactly when the prompt is falsy,
    and then it does nothing but warn on the console. *)
Theorem missing_prompt_iff (w : world) (reqBody userPrompt : js_value) :
  key_configured w = true ->
  request_json w = inr reqBody ->
  read_prompt reqBody [] = (inr userPrompt, []) ->
  (truthy userPrompt = false <-> fst (POST w) = prompt_missing) /\
  (truthy userPrompt = false -> snd (POST w) = [Console LevelWarn NoPromptProvided]).
Proof.
  intros Hkey Hbody Hread.
  handler_paths w;
    try match goal with
        | |- context [catch_block ?e ?l] =>
            destruct (catch_block_cases e l) as (text' & code & -> & _)
        end;
    same_world; try discriminate;
    cbn [fst snd prompt_missing NextResponse_json];
    (split; [split; intros Hgoal | intros Hgoal]);
    try reflexivity; try assumption; try congruence; try discriminate.
Qed.

(** X8: the prompt is not required to be a string.  Any truthy prompt that
    can be written into the log line is passed to the upstream service as
    it is, and the text that comes back is relayed with status 200. *)
Theorem truthy_prompt_forwarded (w : world) (apiKey : string)
    (reqBody userPrompt : js_value) (text : string) :
  GEMINI_API_KEY w = Some apiKey ->
  truthy (JStr apiKey) = true ->
  request_json w = inr reqBody ->
  read_prompt reqBody [] = (inr userPrompt, []) ->
  truthy userPrompt = true ->
  string_conversion_fails userPrompt = false ->
  generateContent w apiKey "gemini-pro" userPrompt = inr text ->
  fst (POST w) = {| body := [("reply", JStr text)]; status := 200 |} /\
  upstream_calls (snd (POST w)) = [UpstreamCall apiKey "gemini-pro" userPrompt].
Proof.
  intros Hk Ht Hbody Hread Hp Hs Hsdk.
  handler_paths w; same_world; try discriminate; try congruence.
  now split.
Qed.

(** X9: a prompt that has no string form (an object with a member named
    [toString], or an array that holds one) stops the handler at the log
    line: the [TypeError] goes to the [catch] block, the upstream service
    is not contacted, and the status is neither 200 nor 400. *)
Theorem unprintable_prompt_not_sent (w : world) (reqBody userPrompt : js_value) :
  key_configured w = true ->
  request_json w = inr reqBody ->
  read_prompt reqBody [] = (inr userPrompt, []) ->
  string_conversion_fails userPrompt = true ->
  caught w (mkError TypeError to_primitive_message) /\
  upstream_invoked (snd (POST w)) = false /\
  status (fst (POST w)) <> 200 /\
  status (fst (POST w)) <> 400.
Proof.
  intros Hkey Hbody Hread Hs.
  pose proof (unprintable_truthy userPrompt Hs) as Hp.
  destruct (key_configured_inv w Hkey) as (apiKey & Hk & Ht).
  assert (Htry : try_block w apiKey [] = (inl (mkError TypeError to_primitive_message), [])).
  { unfold try_block, bind. rewrite Hbody. cbn [await ret]. rewrite Hread, Hp.
    cbn [negb]. unfold template_literal. now rewrite Hs. }
  assert (Hcaught : caught w (mkError TypeError to_primitive_message))
    by now exists apiKey, [].
  split; [exact Hcaught|]. split.
  - unfold POST. rewrite Hk, Ht, Htry. cbn [negb]. now rewrite catch_block_log.
  - rewrite (POST_caught w _ Hcaught). cbn [status NextResponse_json]. split.
    + apply classify_not_200.
    + intros H. now destruct (classify_400 _ H).
Qed.

(** X10: a failure of the upstream service never escapes the handler: the
    exception is the one the [catch] block classifies, after one call of
    the service, and it is written to the console twice. *)
Theorem upstream_failure_caught (w : world) (apiKey : string)
    (reqBody userPrompt : js_value) (error : js_error) :
  GEMINI_API_KEY w = Some apiKey ->
  truthy (JStr apiKey) = true ->
  request_json w = inr reqBody ->
  read_prompt reqBody [] = (inr userPrompt, []) ->
  truthy userPrompt = true ->
  string_conversion_fails userPrompt = false ->
  generateContent w apiKey "gemini-pro" userPrompt = inl error ->
  caught w error /\
  snd (POST w) =
  [Console LevelLog (PromptReceived userPrompt);
   Console LevelLog ContactingGemini;
   UpstreamCall apiKey "gemini-pro" userPrompt;
   Console LevelError (CaughtError error);
   Console LevelError (ErrorDetails error)].
Proof.
  intros Hk Ht Hbody Hread Hp Hs Hsdk.
  assert (Htry : try_block w apiKey [] = (inl error, trace_to_upstream apiKey userPrompt)).
  { unfold try_block, bind. rewrite Hbody. cbn [await ret]. rewrite Hread, Hp.
    cbn [negb]. unfold template_literal. rewrite Hs. cbn [ret].
    unfold generate_text, bind, console, emit. now rewrite Hsdk. }
  split.
  - now exists apiKey, (trace_to_upstream apiKey userPrompt).
  - unfold POST. rewrite Hk, Ht, Htry. cbn [negb]. now rewrite catch_block_log.
Qed.

End Prompts.

(** ** Letter case in the tests of the [catch] block *)

Lemma toLowerCase_ascii_split (m x y : string) :
  toLowerCase_ascii m = x ++ y ->
  exists m1 m2, m = m1 ++ m2 /\ toLowerCase_ascii m1 = x /\ toLowerCase_ascii m2 = y.
Proof.
  revert m. induction x as [|c x IH]; intros m H.
  - now exists EmptyString, m.
  - destruct m as [|d m]; [discriminate|].
    cbn in H. injection H as Hc Hrest.
    destruct (IH m Hrest) as (m1 & m2 & -> & H1 & H2).
    exists (String d m1), m2. cbn. now rewrite Hc, H1.
Qed.

Section LetterCase.

Context {engine : JsEngine}.

(** X12: on a message that the engine lower-cases letter by letter, as it
    does every ASCII text, a test of the [catch] block succeeds exactly when
    the message contains the phrase in some mix of upper and lower case. *)
Theorem message_mentions_iff (error : js_error) (needle : string) :
  toLowerCase (message error) = toLowerCase_ascii (message error) ->
  needle <> EmptyString ->
  message_mentions error needle = true <->
  exists a u b, message error = a ++ u ++ b /\ toLowerCase_ascii u = needle.
Proof.
  intros Hlower Hneedle. unfold message_mentions. rewrite Hlower. split.
  - rewrite andb_true_iff. intros [_ Hinc].
    apply includes_iff in Hinc as (a' & b' & Hsplit).
    apply toLowerCase_ascii_split in Hsplit as (a & rest & Hm & _ & Hrest).
    apply toLowerCase_ascii_split in Hrest as (u & b & -> & Hu & _).
    now exists a, u, b.
  - intros (a & u & b & Hm & Hu). rewrite Hm.
    rewrite (includes_any_case a u b needle Hu), andb_true_r.
    cbn [truthy]. apply negb_true_iff, String.eqb_neq.
    destruct a; [|discriminate]. destruct u; [|discriminate].
    cbn in Hu. congruence.
Qed.

End LetterCase.

(** ** What the key and the console have to do with the response *)

Section KeyAndConsole.

Context {engine : JsEngine}.

(** X11: the API key shows neither in the response nor on the console.
    Two keys that the upstream service treats alike lead to the same
    response and to the same console output. *)
Theorem key_not_disclosed (w : world) (key1 key2 : string) :
  truthy (JStr key1) = true ->
  truthy (JStr key2) = true ->
  (forall prompt,
     generateContent w key1 "gemini-pro" prompt = generateContent w key2 "gemini-pro" prompt) ->
  fst (POST (with_key w key1)) = fst (POST (with_key w key2)) /\
  console_output (snd (POST (with_key w key1))) =
  console_output (snd (POST (with_key w key2))).
Proof.
  intros H1 H2 Hsame.
  unfold POST, with_key. cbn [GEMINI_API_KEY]. rewrite H1, H2. cbn [negb].
  unfold try_block, bind. cbn [request_json generateContent].
  destruct (request_json w) as [e | reqBody]; cbn [await throw ret].
  { now rewrite !catch_block_response, !catch_block_log. }
  destruct (read_prompt reqBody []) as [[e | userPrompt] log].
  { now rewrite !catch_block_response, !catch_block_log. }
  destruct (truthy userPrompt); cbn [negb]; [|now split].
  unfold template_literal.
  destruct (string_conversion_fails userPrompt); cbn [throw ret].
  { now rewrite !catch_block_response, !catch_block_log. }
  unfold generate_text, bind, console, emit. cbn [generateContent]. rewrite <- Hsame.
  destruct (generateContent w key1 "gemini-pro" userPrompt) as [e | text];
    cbn [await throw ret].
  - rewrite !catch_block_response, !catch_block_log. split; [reflexivity|].
    unfold console_output. now rewrite !filter_app.
  - split; [reflexivity|].
    unfold console_output. cbn [snd]. now rewrite !filter_app.
Qed.

(** X13: the console tells a failed request from a served one.  A response
    other than 200 always comes with a warning or an error on the console,
    a 200 response with neither. *)
Theorem warned_iff_not_ok (w : world) :
  existsb is_warning (snd (POST w)) = negb (status (fst (POST w)) =? 200).
Proof.
  handler_paths w;
    try match goal with
        | |- context [catch_block ?e ?l] =>
            rewrite catch_block_log;
            destruct (catch_block_cases e l)
              as (text' & code & -> & [[_ Hcode] | [_ ->]]);
            [cbn [In] in Hcode; intuition (subst; try contradiction)|];
            cbn [fst snd status]; rewrite existsb_app, orb_true_r
        end;
    reflexivity.
Qed.

End KeyAndConsole.

(** ** The further properties on the sample worlds *)

(** The refused key is answered 401, with a text of the handler's own. *)
Lemma exception_text_only_under_500_witness :
  error_of (fst (POST (engine := v8) (hello_world (failing_sdk invalid_key_error)))) =
  Some (JStr "Gemini API Key is not valid. Please check your .env.local file and ensure it's correct.") /\
  status (fst (POST (engine := v8) (hello_world (failing_sdk invalid_key_error)))) <> 500 /\
  In "Gemini API Key is not valid. Please check your .env.local file and ensure it's correct."
     fixed_error_texts.
Proof.
  split; [reflexivity|]. split; [vm_compute; discriminate|].
  apply (exception_text_only_under_500 (engine := v8)
           (hello_world (failing_sdk invalid_key_error))).
  - reflexivity.
  - vm_compute. discriminate.
Defined.

(** The served request [{"prompt": "hello"}]. *)
Lemma ok_is_a_relay_witness :
  status (fst (POST (engine := v8) (hello_world (healthy_sdk "hi there")))) = 200 /\
  exists apiKey reqBody userPrompt text,
    GEMINI_API_KEY (hello_world (healthy_sdk "hi there")) = Some apiKey /\
    request_json (hello_world (healthy_sdk "hi there")) = inr reqBody /\
    read_prompt (engine := v8) reqBody [] = (inr userPrompt, []) /\
    truthy userPrompt = true /\
    generateContent (hello_world (healthy_sdk "hi there")) apiKey "gemini-pro" userPrompt
    = inr text /\
    body (fst (POST (engine := v8) (hello_world (healthy_sdk "hi there"))))
    = [("reply", JStr text)] /\
    upstream_calls (snd (POST (engine := v8) (hello_world (healthy_sdk "hi there"))))
    = [UpstreamCall apiKey "gemini-pro" userPrompt].
Proof.
  split; [reflexivity|].
  apply (ok_is_a_relay (engine := v8) (hello_world (healthy_sdk "hi there"))).
  reflexivity.
Defined.

(** The prompt 0 is falsy. *)
Lemma missing_prompt_iff_witness :
  key_configured (body_world (JObj [("prompt", JNum (S754_zero false))])) = true /\
  request_json (body_world (JObj [("prompt", JNum (S754_zero false))]))
  = inr (JObj [("prompt", JNum (S754_zero false))]) /\
  read_prompt (engine := v8) (JObj [("prompt", JNum (S754_zero false))]) []
  = (inr (JNum (S754_zero false)), []) /\
  truthy (JNum (S754_zero false)) = false /\
  fst (POST (engine := v8) (body_world (JObj [("prompt", JNum (S754_zero false))])))
  = prompt_missing /\
  snd (POST (engine := v8) (body_world (JObj [("prompt", JNum (S754_zero false))])))
  = [Console LevelWarn NoPromptProvided].
Proof.
  do 4 (split; [reflexivity|]).
  destruct (missing_prompt_iff (engine := v8)
              (body_world (JObj [("prompt", JNum (S754_zero false))]))
              (JObj [("prompt", JNum (S754_zero false))])
              (JNum (S754_zero false))
              eq_refl eq_refl eq_refl) as [Hiff Htrace].
  split; [apply Hiff; reflexivity | apply Htrace; reflexivity].
Defined.

(** A prompt that is an array is sent on as an array. *)
Lemma truthy_prompt_forwarded_witness :
  GEMINI_API_KEY (body_world (JObj [("prompt", parts_prompt)])) = Some "secret-key" /\
  truthy (JStr "secret-key") = true /\
  request_json (body_world (JObj [("prompt", parts_prompt)]))
  = inr (JObj [("prompt", parts_prompt)]) /\
  read_prompt (engine := v8) (JObj [("prompt", parts_prompt)]) [] = (inr parts_prompt, []) /\
  truthy parts_prompt = true /\
  string_conversion_fails parts_prompt = false /\
  generateContent (body_world (JObj [("prompt", parts_prompt)]))
    "secret-key" "gemini-pro" parts_prompt = inr "hi there" /\
  fst (POST (engine := v8) (body_world (JObj [("prompt", parts_prompt)])))
  = {| body := [("reply", JStr "hi there")]; status := 200 |} /\
  upstream_calls (snd (POST (engine := v8) (body_world (JObj [("prompt", parts_prompt)]))))
  = [UpstreamCall "secret-key" "gemini-pro" parts_prompt].
Proof.
  do 7 (split; [reflexivity|]).
  apply (truthy_prompt_forwarded (engine := v8)
           (body_world (JObj [("prompt", parts_prompt)])) "secret-key"
           (JObj [("prompt", parts_prompt)]) parts_prompt "hi there");
    reflexivity.
Defined.

(** The request [{"prompt": {"toString": 0}}] ends in the catch block. *)
Lemma unprintable_prompt_not_sent_witness :
  key_configured (body_world (JObj [("prompt", unprintable_prompt)])) = true /\
  request_json (body_world (JObj [("prompt", unprintable_prompt)]))
  = inr (JObj [("prompt", unprintable_prompt)]) /\
  read_prompt (engine := v8) (JObj [("prompt", unprintable_prompt)]) []
  = (inr unprintable_prompt, []) /\
  string_conversion_fails unprintable_prompt = true /\
  caught (engine := v8) (body_world (JObj [("prompt", unprintable_prompt)]))
    (mkError TypeError "Cannot convert object to primitive value") /\
  upstream_invoked (snd (POST (engine := v8) (body_world (JObj [("prompt", unprintable_prompt)]))))
  = false /\
  status (fst (POST (engine := v8) (body_world (JObj [("prompt", unprintable_prompt)])))) <> 200 /\
  status (fst (POST (engine := v8) (body_world (JObj [("prompt", unprintable_prompt)])))) <> 400.
Proof.
  do 4 (split; [reflexivity|]).
  apply (unprintable_prompt_not_sent (engine := v8)
           (body_world (JObj [("prompt", unprintable_prompt)]))
           (JObj [("prompt", unprintable_prompt)]) unprintable_prompt);
    reflexivity.
Defined.

(** The SDK cannot reach the network. *)
Lemma upstream_failure_caught_witness :
  GEMINI_API_KEY (hello_world (failing_sdk network_error)) = Some "secret-key" /\
  truthy (JStr "secret-key") = true /\
  request_json (hello_world (failing_sdk network_error)) = inr hello_body /\
  read_prompt (engine := v8) hello_body [] = (inr (JStr "hello"), []) /\
  truthy (JStr "hello") = true /\
  string_conversion_fails (JStr "hello") = false /\
  generateContent (hello_world (failing_sdk network_error))
    "secret-key" "gemini-pro" (JStr "hello") = inl network_error /\
  caught (engine := v8) (hello_world (failing_sdk network_error)) network_error /\
  snd (POST (engine := v8) (hello_world (failing_sdk network_error))) =
  [Console LevelLog (PromptReceived (JStr "hello"));
   Console LevelLog ContactingGemini;
   UpstreamCall "secret-key" "gemini-pro" (JStr "hello");
   Console LevelError (CaughtError network_error);
   Console LevelError (ErrorDetails network_error)].
Proof.
  do 7 (split; [reflexivity|]).
  apply (upstream_failure_caught (engine := v8)
           (hello_world (failing_sdk network_error)) "secret-key"
           hello_body (JStr "hello") network_error);
    reflexivity.
Defined.

(** Two keys, one SDK that answers both. *)
Lemma key_not_disclosed_witness :
  truthy (JStr "key-one") = true /\
  truthy (JStr "key-two") = true /\
  (forall prompt,
     generateContent (hello_world (healthy_sdk "hi there")) "key-one" "gemini-pro" prompt =
     generateContent (hello_world (healthy_sdk "hi there")) "key-two" "gemini-pro" prompt) /\
  fst (POST (engine := v8) (with_key (hello_world (healthy_sdk "hi there")) "key-one")) =
  fst (POST (engine := v8) (with_key (hello_world (healthy_sdk "hi there")) "key-two")) /\
  console_output
    (snd (POST (engine := v8) (with_key (hello_world (healthy_sdk "hi there")) "key-one"))) =
  console_output
    (snd (POST (engine := v8) (with_key (hello_world (healthy_sdk "hi there")) "key-two"))).
Proof.
  do 2 (split; [reflexivity|]). split; [intros prompt; reflexivity|].
  apply (key_not_disclosed (engine := v8) (hello_world (healthy_sdk "hi there"))
           "key-one" "key-two");
    [reflexivity | reflexivity | intros prompt; reflexivity].
Defined.

(** "Model Not Found" with capitals, inside the text of the SDK. *)
Lemma message_mentions_iff_witness :
  toLowerCase (JsEngine := v8) (message model_error) = toLowerCase_ascii (message model_error) /\
  "model not found" <> EmptyString /\
  message model_error =
  "[GoogleGenerativeAI Error]: [404 Not Found] " ++ "Model Not Found" ++ ": models/gemini-pro." /\
  toLowerCase_ascii "Model Not Found" = "model not found" /\
  message_mentions (engine := v8) model_error "model not found" = true.
Proof.
  split; [reflexivity|]. split; [discriminate|]. do 2 (split; [reflexivity|]).
  apply (message_mentions_iff (engine := v8) model_error "model not found");
    [reflexivity | discriminate |].
  exists "[GoogleGenerativeAI Error]: [404 Not Found] ", "Model Not Found",
    ": models/gemini-pro.".
  split; reflexivity.
Defined.

(** ** The body [null] *)

Section NullBody.

Context {engine : JsEngine}.

(** X14: the body [null] parses, but reading its [prompt] raises a
    [TypeError].  The handler answers from the [catch] block, with
    [details] and a status among 401, 404, 429 and 500, never with the
    missing-prompt 400, and does not contact the upstream service. *)
Theorem null_body_caught (w : world) :
  key_configured w = true ->
  request_json w = inr JNull ->
  caught w (mkError TypeError (nullish_read_message "null" "prompt")) /\
  In (status (fst (POST w))) [401; 404; 429; 500] /\
  details_of (fst (POST w)) = Some (JStr details_text) /\
  upstream_invoked (snd (POST w)) = false.
Proof.
  intros Hkey Hbody. destruct (key_configured_inv w Hkey) as (apiKey & Hk & Ht).
  set (error := mkError TypeError (nullish_read_message "null" "prompt")).
  assert (Htry : try_block w apiKey [] = (inl error, [])).
  { unfold try_block, bind. now rewrite Hbody. }
  assert (Hcaught : caught w error) by now exists apiKey, [].
  split; [exact Hcaught|]. split; [|split].
  - rewrite (POST_caught w error Hcaught). cbn [status NextResponse_json].
    pose proof (classify_table error) as Htable.
    pose proof (classify_400 error) as Hjson.
    destruct (classify error) as [text code]. cbn [snd In] in *.
    repeat match type of Htable with
           | _ \/ _ => destruct Htable as [Htable | Htable]
           end;
      try contradiction; injection Htable as _ <-; try tauto.
    now destruct (Hjson eq_refl).
  - now rewrite (POST_caught w error Hcaught).
  - unfold POST. rewrite Hk, Ht, Htry. cbn [negb]. now rewrite catch_block_log.
Qed.

End NullBody.

(** The request body [null] under V8. *)
Lemma null_body_caught_witness :
  key_configured (body_world JNull) = true /\
  request_json (body_world JNull) = inr JNull /\
  caught (engine := v8) (body_world JNull)
    (mkError TypeError "Cannot read properties of null (reading 'prompt')") /\
  In (status (fst (POST (engine := v8) (body_world JNull)))) [401; 404; 429; 500] /\
  details_of (fst (POST (engine := v8) (body_world JNull))) = Some (JStr details_text) /\
  upstream_invoked (snd (POST (engine := v8) (body_world JNull))) = false.
Proof.
  do 2 (split; [reflexivity|]).
  apply (null_body_caught (engine := v8) (body_world JNull)); reflexivity.
Defined.
